(** * Watershaper: half-ellipsoid basins and trapezoidal infiltration ditches

    A shallow embedding of the two Python programs of the repository,
    [infil.py] and [watershaperversiontest21.11.2024.py].

    The programs compute with Python floats.  The arithmetic they use is
    collected in the interface [PyFloat]; every function of the programs is
    written once, over any carrier of that interface, following the source
    statement by statement.  The Python exceptions the arithmetic can raise
    ([ZeroDivisionError] of [/], [ValueError] of [math.sqrt] and of a failed
    unpacking, [IndexError] of a subscript) are results of the error monad
    [result].

    The theorems that need arithmetic facts are proved for the carrier [R]:
    Python's operators read as the exact operations on real numbers, so
    rounding, overflow, infinities and NaN are outside that reading.  The
    carrier of binary64 floats runs the programs on concrete inputs. *)

From Stdlib Require Uint63.
From Stdlib Require Import PrimFloat.
From Stdlib Require Import Reals Lra Lia ZArith List Bool.
Import ListNotations.

(** ** Exceptions and the error monad *)

Inductive exn : Type :=
| ZeroDivisionError   (* [x / 0], [0 ** negative] *)
| ValueError          (* [math.sqrt] of a negative number, unpacking *)
| IndexError          (* subscript out of range *)
| OverflowError       (* [x ** y] too large for a float *)
| ComplexValue.       (* [negative ** non-integer]: no exception of Python,
                         which goes on with a complex number; the embedding
                         follows floats only and stops there *)

Inductive result (A : Type) : Type :=
| Ok (a : A)
| Raise (e : exn).

Arguments Ok {A} a.
Arguments Raise {A} e.

Definition bind {A B : Type} (m : result A) (k : A -> result B) : result B :=
  match m with
  | Ok a => k a
  | Raise e => Raise e
  end.

Declare Scope py_scope.
Delimit Scope py_scope with py.
Notation "x <- m ;; k" := (bind m (fun x => k))
  (at level 61, m at next level, right associativity) : py_scope.

(** ** The float interface *)

Class PyFloat (F : Type) : Type := {
  fadd : F -> F -> F;
  fsub : F -> F -> F;
  fmul : F -> F -> F;
  fquot : F -> F -> F;          (* quotient by a non-zero divisor *)
  fabs : F -> F;                (* [abs] *)
  froot : F -> F;               (* square root of a non-negative number *)
  fpow : F -> F -> result F;    (* [x ** y] *)
  flt : F -> F -> bool;         (* [x < y] *)
  fle : F -> F -> bool;         (* [x <= y] *)
  fis0 : F -> bool;             (* [x == 0] *)
  of_Z : Z -> F;                (* an [int] used as a float *)
  dec : Z -> nat -> F;          (* the literal [m e-k], as [dec m k] *)
  fpi : F                       (* [math.pi] *)
}.

Declare Scope pyfloat_scope.
Delimit Scope pyfloat_scope with fl.
Infix "+" := fadd : pyfloat_scope.
Infix "-" := fsub : pyfloat_scope.
Infix "*" := fmul : pyfloat_scope.
Infix "/" := fquot : pyfloat_scope.
Infix "<?" := flt : pyfloat_scope.
Infix "<=?" := fle : pyfloat_scope.

Section PythonOperators.
Context {F : Type} `{PyFloat F}.

(** [x / y] on floats: raises when the divisor is zero. *)
Definition truediv (x y : F) : result F :=
  if fis0 y then Raise ZeroDivisionError else Ok (x / y)%fl.

(** [math.sqrt x]: raises a math domain error below zero. *)
Definition math_sqrt (x : F) : result F :=
  if (x <? of_Z 0)%fl then Raise ValueError else Ok (froot x).

(** [a, b = params]. *)
Definition unpack2 (params : list F) : result (F * F) :=
  match params with
  | [a; b] => Ok (a, b)
  | _ => Raise ValueError
  end.

(** [params[i]]. *)
Definition subscript (params : list F) (i : nat) : result F :=
  match nth_error params i with
  | Some v => Ok v
  | None => Raise IndexError
  end.
End PythonOperators.

(** ** Real numbers as the carrier *)

Open Scope R_scope.

Definition Rltb (x y : R) : bool := if Rlt_dec x y then true else false.
Definition Rleb (x y : R) : bool := if Rle_dec x y then true else false.
Definition Req0b (x : R) : bool := if Req_dec_T x 0 then true else false.

(** [x ** y] of Python floats, read on the reals.  [x ** 0] is [1] for every
    [x]; [0 ** y] is [0] for positive [y] and raises for negative [y]; a
    negative base is raised to an integral exponent only.  The reals do not
    overflow: [OverflowError] is a result of the binary64 [**] only. *)
Definition py_pow (x y : R) : result R :=
  if Req_dec_T y 0 then Ok 1
  else if Req_dec_T x 0 then
    (if Rlt_dec y 0 then Raise ZeroDivisionError else Ok 0)
  else if Rlt_dec 0 x then Ok (Rpower x y)
  else if Req_dec_T y (IZR (Int_part y)) then Ok (powerRZ x (Int_part y))
  else Raise ComplexValue.

#[export] Instance PyFloat_R : PyFloat R := {|
  fadd := Rplus;
  fsub := Rminus;
  fmul := Rmult;
  fquot := Rdiv;
  fabs := Rabs;
  froot := sqrt;
  fpow := py_pow;
  flt := Rltb;
  fle := Rleb;
  fis0 := Req0b;
  of_Z := IZR;
  dec := fun m k => IZR m / IZR (10 ^ Z.of_nat k);
  fpi := PI
|}.

Close Scope R_scope.

(** ** Binary64 floats as the carrier

    A Python float is an IEEE 754 binary64 number, the primitive [float].
    [+], [-], [*], [/], [abs], [math.sqrt] and the comparisons are the
    IEEE operations.  A decimal literal of the programs is the quotient of
    two integers that are floats, and the division rounds once, to the float
    the literal denotes.  [float.__pow__] goes through the C library; it is a
    parameter of the carrier. *)

Module Binary64.

Definition float_of_Z (z : Z) : float :=
  match z with
  | Z0 => PrimFloat.zero
  | Zpos _ => PrimFloat.of_uint63 (Uint63.of_Z z)
  | Zneg p => PrimFloat.opp (PrimFloat.of_uint63 (Uint63.of_Z (Zpos p)))
  end.

Definition carrier (float_pow : float -> float -> result float)
  : PyFloat float := {|
  fadd := PrimFloat.add;
  fsub := PrimFloat.sub;
  fmul := PrimFloat.mul;
  fquot := PrimFloat.div;
  fabs := PrimFloat.abs;
  froot := PrimFloat.sqrt;
  fpow := float_pow;
  flt := PrimFloat.ltb;
  fle := PrimFloat.leb;
  fis0 := fun x => PrimFloat.eqb x PrimFloat.zero;
  of_Z := float_of_Z;
  dec := fun m k =>
    PrimFloat.div (float_of_Z m) (float_of_Z (10 ^ Z.of_nat k));
  fpi := 0x1.921fb54442d18p+1%float
|}.

End Binary64.

(** ** The optimiser of [scipy.optimize]

    [opt.minimize] is not code of the repository: the solvers are written
    over any function with its calling convention.  A call passes the
    objective, the initial guess, the box and the constraint dictionaries,
    and reads [success] and [x] of the returned object. *)

Record OptimizeResult (F : Type) : Type := {
  success : bool;
  x : list F
}.

Arguments success {F} _.
Arguments x {F} _.

Inductive constraint_type : Type := ineq | eq.

Record constraint (F : Type) : Type := {
  type : constraint_type;
  fun_ : list F -> result F
}.

Arguments type {F} _.
Arguments fun_ {F} _.

Definition minimizer (F : Type) : Type :=
  (list F -> result F) ->        (* fun *)
  list F ->                      (* x0 *)
  list (F * F) ->                (* bounds *)
  list (constraint F) ->         (* constraints *)
  OptimizeResult F.

(** ** [infil.py] *)

Module Infil.
Section Program.
Context {F : Type} `{PyFloat F}.
Open Scope py_scope.
Open Scope pyfloat_scope.

Definition ellipsoid_surface_area_one_side (a b c : F) : result F :=
  let p := dec 16075 4 in
  ab <- fpow (a * b) p ;;
  ac <- fpow (a * c) p ;;
  bc <- fpow (b * c) p ;;
  r <- fpow ((ab + ac + bc) / of_Z 3) (of_Z 1 / p) ;;
  Ok (of_Z 2 * fpi * r).

Definition ellipsoid_volume (a b c : F) : F :=
  (of_Z 2 / of_Z 3) * fpi * a * b * c.

Definition objective (params : list F) (min_surface_area min_volume c : F)
  : result F :=
  ab <- unpack2 params ;;
  let '(a, b) := ab in
  surface_area <- ellipsoid_surface_area_one_side a b c ;;
  let volume := ellipsoid_volume a b c in
  let penalty := of_Z 0 in
  penalty <- (if surface_area <? min_surface_area
              then sq <- fpow (min_surface_area - surface_area) (of_Z 2) ;;
                   Ok (penalty + sq)
              else Ok penalty) ;;
  penalty <- (if volume <? min_volume
              then sq <- fpow (min_volume - volume) (of_Z 2) ;;
                   Ok (penalty + sq)
              else Ok penalty) ;;
  Ok (penalty + a + b).

Definition initial_guess : list F := [dec 5 1; dec 10 1].

Definition bounds : list (F * F) :=
  [(dec 1 1, of_Z 5); (dec 1 1, of_Z 5)].

Definition calculate_ellipsoid (minimize : minimizer F)
    (min_surface_area min_volume depth : F) : result (option (F * F)) :=
  let c := depth in
  let result :=
    minimize (fun params => objective params min_surface_area min_volume c)
             initial_guess bounds [] in
  if success result then
    ab <- unpack2 (x result) ;;
    Ok (Some ab)
  else Ok None.
End Program.
End Infil.

(** ** [watershaperversiontest21.11.2024.py] *)

Module Watershaper.
Section Program.
Context {F : Type} `{PyFloat F}.
Open Scope py_scope.
Open Scope pyfloat_scope.

Definition ellipsoid_surface_area_one_side (a b c : F) : result F :=
  let p := dec 16075 4 in
  ab <- fpow (a * b) p ;;
  ac <- fpow (a * c) p ;;
  bc <- fpow (b * c) p ;;
  r <- fpow ((ab + ac + bc) / of_Z 3) (of_Z 1 / p) ;;
  Ok (of_Z 2 * fpi * r).

Definition ellipsoid_volume (a b c : F) : F :=
  (of_Z 2 / of_Z 3) * fpi * a * b * c.

Definition objective (params : list F) (min_surface_area c min_volume : F)
  : result F :=
  ab <- unpack2 params ;;
  let '(a, b) := ab in
  surface_area <- ellipsoid_surface_area_one_side a b c ;;
  let volume := ellipsoid_volume a b c in
  let surface_area_diff := fabs (surface_area - min_surface_area) in
  let volume_diff := fabs (volume - min_volume) in
  Ok (surface_area_diff + volume_diff).

Definition initial_guess (min_surface_area : F) : list F :=
  [min_surface_area / of_Z 100; min_surface_area / of_Z 80].

(** The two constraint dictionaries; [ineq] asks for a non-negative
    value of [fun_]. *)
Definition constraints (c min_volume : F) : list (constraint F) :=
  [ {| type := ineq;
       fun_ := fun params =>
         p0 <- subscript params 0 ;;
         p1 <- subscript params 1 ;;
         Ok (ellipsoid_volume p0 p1 c - min_volume) |};
    {| type := ineq;
       fun_ := fun params =>
         p1 <- subscript params 1 ;;
         p0 <- subscript params 0 ;;
         Ok (p1 - dec 15 1 * p0) |} ].

Definition bounds : list (F * F) :=
  [(dec 1 1, of_Z 100); (dec 1 1, of_Z 100)].

Definition calculate_ellipsoid (minimize : minimizer F)
    (min_surface_area min_volume depth : F)
  : result (option (F * F * F)) :=
  let c := depth in
  let result :=
    minimize (fun params => objective params min_surface_area c min_volume)
             (initial_guess min_surface_area) bounds
             (constraints c min_volume) in
  if success result then
    ab <- unpack2 (x result) ;;
    let '(a, b) := ab in
    Ok (Some (a, b, c))
  else Ok None.

Definition calculate_infiltration_ditch
    (width depth min_volume min_surface_area roof_area : F)
  : result (F * F * F) :=
  length <- truediv min_volume
              ((width * dec 5 1 + width) / of_Z 2 * depth) ;;
  let base_width := width * dec 5 1 in
  sq_w <- fpow (width - base_width) (of_Z 2) ;;
  sq_d <- fpow depth (of_Z 2) ;;
  slant_height <- math_sqrt (sq_w / of_Z 4 + sq_d) ;;
  let calculate_surface_area (length : F) : F :=
    let base_area := base_width * length in
    let top_area := width * length in
    let slanted_wall_area := slant_height * length in
    of_Z 2 * slanted_wall_area in
  let current_surface_area := calculate_surface_area length in
  length <- (if current_surface_area <? min_surface_area
             then scale_factor <-
                    truediv min_surface_area current_surface_area ;;
                  Ok (length * scale_factor)
             else Ok length) ;;
  let volume := ((base_width + width) / of_Z 2) * depth * length in
  let surface_area := calculate_surface_area length in
  Ok (volume, surface_area, length).

(** The top-level script, from the sidebar inputs to the requirements
    and the rainwell size in litres. *)
Record requirements : Type := {
  min_volume : F;
  min_surface_area : F;
  roof_square_meters : F;       (* after the rainwell adjustment *)
  rainwell_size : F
}.

Definition derive_requirements (roof_square_meters : F)
    (has_rainwell : bool) : requirements :=
  let min_volume := (roof_square_meters * of_Z 33) / of_Z 1000 in
  let min_surface_area := roof_square_meters * dec 8 2 in
  let roof_square_meters :=
    if has_rainwell then roof_square_meters - of_Z 30
    else roof_square_meters in
  let rainwell_size :=
    if roof_square_meters <? of_Z 80 then of_Z 5000
    else if (of_Z 80 <=? roof_square_meters)
            && (roof_square_meters <? of_Z 120) then of_Z 7500
    else if (of_Z 120 <=? roof_square_meters)
            && (roof_square_meters <? of_Z 200) then of_Z 10000
    else roof_square_meters * of_Z 100 in
  {| min_volume := min_volume;
     min_surface_area := min_surface_area;
     roof_square_meters := roof_square_meters;
     rainwell_size := rainwell_size |}.

(** The three buttons.  The basin is solved at the depth 0.3, the wadi at
    0.5, the ditch at the width 1.5 and the depth of the slider. *)
Definition button_infiltratiekom (minimize : minimizer F)
    (roof_square_meters : F) (has_rainwell : bool)
  : result (option (F * F * F)) :=
  let r := derive_requirements roof_square_meters has_rainwell in
  calculate_ellipsoid minimize (min_surface_area r) (min_volume r) (dec 3 1).

Definition button_wadi (minimize : minimizer F)
    (roof_square_meters : F) (has_rainwell : bool)
  : result (option (F * F * F)) :=
  let r := derive_requirements roof_square_meters has_rainwell in
  calculate_ellipsoid minimize (min_surface_area r) (min_volume r) (dec 5 1).

Definition button_infiltratiegracht
    (roof_square_meters : F) (has_rainwell : bool) (depth : F)
  : result (F * F * F) :=
  let r := derive_requirements roof_square_meters has_rainwell in
  let width := dec 15 1 in
  calculate_infiltration_ditch width depth (min_volume r)
    (min_surface_area r) (Program.roof_square_meters r).

(** The line the ditch button ends with: the warning when the returned
    volume is below the minimum volume, the success line otherwise. *)
Inductive volume_message : Type := volume_below | volume_met.

Definition infiltratiegracht_message
    (roof_square_meters : F) (has_rainwell : bool) (depth : F)
  : result volume_message :=
  let r := derive_requirements roof_square_meters has_rainwell in
  triple <- button_infiltratiegracht roof_square_meters has_rainwell depth ;;
  let '(volume, surface_area, length) := triple in
  Ok (if volume <? min_volume r then volume_below else volume_met).
End Program.
End Watershaper.

(** ** The ditch formulas of the specification

    The specification names the pieces of the ditch computation; they are
    written here over [R], following its words, to state what
    [calculate_infiltration_ditch] returns. *)

Open Scope R_scope.

(** [ditchSurfaceArea(baseWidth, slantHeight, length)]: the two slanted
    walls. *)
Definition ditchSurfaceArea (baseWidth slantHeight length : R) : R :=
  2 * slantHeight * length.

(** [ditchVolume(baseWidth, topWidth, depth, length)]: the trapezoidal
    prism. *)
Definition ditchVolume (baseWidth topWidth depth length : R) : R :=
  ((baseWidth + topWidth) / 2) * depth * length.

(** The divisor of the initial length, the initial length and the slant
    height, as the source computes them. *)
Definition ditch_den (w d : R) : R := (w * 0.5 + w) / 2 * d.
Definition ditch_length0 (w d mv : R) : R := mv / ditch_den w d.
Definition ditch_slant (w d : R) : R :=
  sqrt ((w - w * 0.5) * (w - w * 0.5) / 4 + d * d).

(** The larger of the length the minimum volume asks for and the length the
    minimum surface area asks for. *)
Definition ditch_length (w d mv msa : R) : R :=
  Rmax (ditch_length0 w d mv) (msa / (2 * ditch_slant w d)).

(** The triple returned for a ditch of length [L]. *)
Definition ditch_at (w d L : R) : R * R * R :=
  (ditchVolume (w * 0.5) w d L,
   ditchSurfaceArea (w * 0.5) (ditch_slant w d) L,
   L).

(** ** The half-ellipsoid formulas on the reals *)

(** [x ** y] for a non-negative base and a positive exponent. *)
Definition Rpow_nonneg (x y : R) : R :=
  if Req_dec_T x 0 then 0 else Rpower x y.

(** The approximation [2 pi (((ab)^p + (ac)^p + (bc)^p) / 3)^(1/p)] with
    [p = 1.6075]. *)
Definition thomsen_area (a b c : R) : R :=
  2 * PI *
  Rpow_nonneg
    ((Rpow_nonneg (a * b) 1.6075 + Rpow_nonneg (a * c) 1.6075
      + Rpow_nonneg (b * c) 1.6075) / 3)
    (1 / 1.6075).

(** ** The penalty of Policy A, in the words of the specification

    The sum of the squared shortfalls [(minSurfaceArea - computedSurfaceArea)^2]
    and [(minVolume - computedVolume)^2], each included only when the
    computed quantity is below its minimum. *)

Definition squared_shortfall (minimum computed : R) : R :=
  if Rlt_dec computed minimum then (minimum - computed) ^ 2 else 0.

Definition penalty_spec (minSurfaceArea minVolume : R)
    (computedSurfaceArea computedVolume : R) : R :=
  squared_shortfall minSurfaceArea computedSurfaceArea
  + squared_shortfall minVolume computedVolume.

(** ** Boxes *)

(** A point lies in a box when every coordinate lies between its pair of
    bounds, as [bounds=] asks of [opt.minimize]. *)
Definition in_box (bounds : list (R * R)) (point : list R) : Prop :=
  Forall2 (fun bd v => fst bd <= v <= snd bd) bounds point.

(** ** Constraints *)

(** A point satisfies a list of [ineq] constraints when every function is
    computed there and is not negative. *)
Definition satisfies (constraints : list (constraint R)) (point : list R)
  : Prop :=
  Forall (fun k => exists v, fun_ k point = Ok v /\ 0 <= v) constraints.

(** * Properties *)

(** ** Facts on the real carrier *)

Lemma Rltb_spec (x y : R) : reflect (x < y) (Rltb x y).
Proof. unfold Rltb. destruct (Rlt_dec x y); constructor; assumption. Qed.

Lemma Rleb_spec (x y : R) : reflect (x <= y) (Rleb x y).
Proof. unfold Rleb. destruct (Rle_dec x y); constructor; assumption. Qed.

Lemma Req0b_spec (x : R) : reflect (x = 0) (Req0b x).
Proof. unfold Req0b. destruct (Req_dec_T x 0); constructor; assumption. Qed.

(** Squaring with [**] never raises. *)
Lemma py_pow_2 (x : R) : py_pow x 2 = Ok (x * x).
Proof.
  unfold py_pow.
  destruct (Req_dec_T 2 0) as [E|_]; [lra|].
  destruct (Req_dec_T x 0) as [->|Hx].
  - destruct (Rlt_dec 2 0); [lra|]. f_equal; ring.
  - destruct (Rlt_dec 0 x) as [Hp|Hn].
    + f_equal. change 2 with (INR 2). rewrite Rpower_pow by assumption. ring.
    + assert (Int_part 2 = 2%Z) as ->.
      { symmetry. apply Int_part_spec. simpl. lra. }
      destruct (Req_dec_T 2 2); [|lra]. f_equal. simpl. ring.
Qed.

Lemma math_sqrt_nonneg (x : R) : 0 <= x -> math_sqrt x = Ok (sqrt x).
Proof.
  intros Hx. unfold math_sqrt. cbn.
  destruct (Rltb_spec x 0); [lra | reflexivity].
Qed.

(** ** The ditch solver on the reals *)

Ltac triple_eq :=
  apply f_equal; apply f_equal2; [apply f_equal2|];
  unfold ditch_den; try ring.

(** The control flow of [calculate_infiltration_ditch]: two divisions can
    raise, nothing else does. *)
Lemma ditch_unfold (w d mv msa roof : R) :
  Watershaper.calculate_infiltration_ditch w d mv msa roof =
  if Req0b (ditch_den w d) then Raise ZeroDivisionError
  else
    let L0 := ditch_length0 w d mv in
    let sa0 := ditchSurfaceArea (w * 0.5) (ditch_slant w d) L0 in
    if Rltb sa0 msa then
      if Req0b sa0 then Raise ZeroDivisionError
      else Ok (ditch_at w d (L0 * (msa / sa0)))
    else Ok (ditch_at w d L0).
Proof.
  unfold Watershaper.calculate_infiltration_ditch, truediv. cbn.
  change (5 / 10) with 0.5.
  fold (ditch_den w d).
  destruct (Req0b (ditch_den w d)); [reflexivity|]. cbn.
  rewrite !py_pow_2. cbn.
  rewrite math_sqrt_nonneg by nra. cbn.
  fold (ditch_slant w d). fold (ditch_length0 w d mv).
  unfold ditchSurfaceArea.
  replace (2 * ditch_slant w d * ditch_length0 w d mv)
    with (2 * (ditch_slant w d * ditch_length0 w d mv)) by ring.
  destruct (Rltb _ msa); cbn.
  - destruct (Req0b _); cbn; [reflexivity|].
    unfold ditch_at, ditchVolume, ditchSurfaceArea. triple_eq.
  - unfold ditch_at, ditchVolume, ditchSurfaceArea. triple_eq.
Qed.

Lemma ditch_den_pos (w d : R) : 0 < w -> 0 < d -> 0 < ditch_den w d.
Proof. intros. unfold ditch_den. nra. Qed.

Lemma ditch_slant_pos (w d : R) : 0 < d -> 0 < ditch_slant w d.
Proof. intros. unfold ditch_slant. apply sqrt_lt_R0. nra. Qed.

(** The slant height of the source is the one of the specification,
    [sqrt(((w - baseWidth) / 2)^2 + d^2)]. *)
Lemma ditch_slant_spec (w d : R) :
  ditch_slant w d = sqrt (((w - w * 0.5) / 2) ^ 2 + d ^ 2).
Proof. unfold ditch_slant. f_equal. field. Qed.

(** C2.  For positive width, depth, minimum volume and minimum surface
    area the ditch solver returns a triple; its length is the initial
    length [minVolume / (((baseWidth + width) / 2) * depth)], multiplied once
    by [minSurfaceArea / realizedSurfaceArea] exactly when the realized
    surface area at the initial length is below the minimum; the returned
    surface area is the one of the returned length and is at least
    [minSurfaceArea - eps]; the returned volume is
    [((baseWidth + width) / 2) * depth * length] at the returned length. *)
Theorem ditch_single_correction (w d mv msa roof eps : R) :
  0 < w -> 0 < d -> 0 < mv -> 0 < msa -> 0 <= eps ->
  let baseWidth := w * 0.5 in
  let slantHeight := ditch_slant w d in
  let length0 := mv / (((baseWidth + w) / 2) * d) in
  let realized0 := ditchSurfaceArea baseWidth slantHeight length0 in
  exists volume surface_area length,
    Watershaper.calculate_infiltration_ditch w d mv msa roof
      = Ok (volume, surface_area, length) /\
    (realized0 < msa -> length = length0 * (msa / realized0)) /\
    (msa <= realized0 -> length = length0) /\
    surface_area = ditchSurfaceArea baseWidth slantHeight length /\
    msa - eps <= surface_area /\
    volume = ditchVolume baseWidth w d length.
Proof.
  intros Hw Hd Hmv Hmsa Heps baseWidth slantHeight length0 realized0.
  pose proof (ditch_den_pos w d Hw Hd) as Hden.
  pose proof (ditch_slant_pos w d Hd) as Hsl.
  assert (HL : length0 = ditch_length0 w d mv).
  { reflexivity. }
  assert (HL0 : 0 < length0).
  { rewrite HL. unfold ditch_length0. apply Rdiv_lt_0_compat; assumption. }
  assert (Hr0 : 0 < realized0).
  { unfold realized0, ditchSurfaceArea. fold slantHeight in Hsl. nra. }
  rewrite ditch_unfold.
  destruct (Req0b_spec (ditch_den w d)) as [E|_]; [lra|].
  cbv zeta. rewrite <- HL. fold baseWidth slantHeight realized0.
  destruct (Rltb_spec realized0 msa) as [Hlt|Hge].
  - destruct (Req0b_spec realized0) as [E|_]; [lra|].
    eexists _, _, _. split; [reflexivity|].
    repeat split; try reflexivity; try lra.
    fold baseWidth slantHeight.
    replace (ditchSurfaceArea baseWidth slantHeight
               (length0 * (msa / realized0))) with msa; [lra|].
    unfold realized0, ditchSurfaceArea. field.
    unfold realized0, ditchSurfaceArea in Hr0. nra.
  - eexists _, _, _. split; [reflexivity|].
    repeat split; try reflexivity; try lra.
    fold baseWidth slantHeight realized0. lra.
Qed.

Lemma ditch_single_correction_witness :
  exists volume surface_area length,
    Watershaper.calculate_infiltration_ditch 1.5 0.5 1.65 4 50
      = Ok (volume, surface_area, length) /\
    4 - 0 <= surface_area /\
    volume = ditchVolume (1.5 * 0.5) 1.5 0.5 length.
Proof.
  destruct (ditch_single_correction 1.5 0.5 1.65 4 50 0)
    as (volume & surface_area & length & Hrun & _ & _ & _ & Harea & Hvol);
    try lra.
  exists volume, surface_area, length. repeat split; assumption.
Defined.

(** The two places where the solver divides. *)
Lemma ditch_den_zero (w d mv msa roof : R) :
  ditch_den w d = 0 ->
  Watershaper.calculate_infiltration_ditch w d mv msa roof
    = Raise ZeroDivisionError.
Proof.
  intros E. rewrite ditch_unfold.
  destruct (Req0b_spec (ditch_den w d)); [reflexivity | contradiction].
Qed.

Lemma ditch_area_zero (w d mv msa roof : R) :
  ditch_den w d <> 0 ->
  ditchSurfaceArea (w * 0.5) (ditch_slant w d) (ditch_length0 w d mv) = 0 ->
  0 < msa ->
  Watershaper.calculate_infiltration_ditch w d mv msa roof
    = Raise ZeroDivisionError.
Proof.
  intros Hden E Hmsa. rewrite ditch_unfold.
  destruct (Req0b_spec (ditch_den w d)); [contradiction|].
  cbv zeta. rewrite E.
  destruct (Rltb_spec 0 msa); [|contradiction].
  destruct (Req0b_spec 0) as [_|N]; [reflexivity | now elim N].
Qed.

Lemma ditch_no_correction (w d mv msa roof : R) :
  ditch_den w d <> 0 ->
  msa <= ditchSurfaceArea (w * 0.5) (ditch_slant w d) (ditch_length0 w d mv) ->
  Watershaper.calculate_infiltration_ditch w d mv msa roof
    = Ok (ditch_at w d (ditch_length0 w d mv)).
Proof.
  intros Hden Hle. rewrite ditch_unfold.
  destruct (Req0b_spec (ditch_den w d)); [contradiction|].
  cbv zeta.
  destruct (Rltb_spec
              (ditchSurfaceArea (w * 0.5) (ditch_slant w d)
                 (ditch_length0 w d mv)) msa); [lra | reflexivity].
Qed.

Lemma ditch_correction (w d mv msa roof : R) :
  ditch_den w d <> 0 ->
  let sa0 :=
    ditchSurfaceArea (w * 0.5) (ditch_slant w d) (ditch_length0 w d mv) in
  sa0 < msa -> sa0 <> 0 ->
  Watershaper.calculate_infiltration_ditch w d mv msa roof
    = Ok (ditch_at w d (ditch_length0 w d mv * (msa / sa0))).
Proof.
  intros Hden sa0 Hlt Hnz. rewrite ditch_unfold.
  destruct (Req0b_spec (ditch_den w d)); [contradiction|].
  cbv zeta. fold sa0.
  destruct (Rltb_spec sa0 msa); [|contradiction].
  destruct (Req0b_spec sa0); [contradiction | reflexivity].
Qed.

(** The inputs of the counterexamples: a ditch 1.5 wide and 0.5 deep. *)
Lemma ditch_den_standard : ditch_den 1.5 0.5 = 0.5625.
Proof. unfold ditch_den. lra. Qed.

Lemma ditch_area_of_zero_volume (w d : R) :
  ditchSurfaceArea (w * 0.5) (ditch_slant w d) (ditch_length0 w d 0) = 0.
Proof. unfold ditchSurfaceArea, ditch_length0, Rdiv. ring. Qed.

(** C3, as amended.  The solver has no failure outcome: a division by
    zero raises [ZeroDivisionError].  It does so when the divisor of the
    initial length is zero, and when the realized surface area at the
    initial length is zero and below the minimum.  A zero realized area
    that is not below the minimum is not divided by, and a negative
    realized area is divided by and yields a triple. *)
Theorem ditch_zero_area_raises (w d mv msa roof : R) :
  let L0 := ditch_length0 w d mv in
  let realized0 := ditchSurfaceArea (w * 0.5) (ditch_slant w d) L0 in
  let run := Watershaper.calculate_infiltration_ditch w d mv msa roof in
  (ditch_den w d = 0 -> run = Raise ZeroDivisionError) /\
  (ditch_den w d <> 0 ->
     (realized0 = 0 -> 0 < msa -> run = Raise ZeroDivisionError) /\
     (realized0 = 0 -> msa <= 0 -> run = Ok (ditch_at w d L0)) /\
     (realized0 < 0 -> realized0 < msa ->
        run = Ok (ditch_at w d (L0 * (msa / realized0))))).
Proof.
  intros L0 realized0 run. split.
  - apply ditch_den_zero.
  - intros Hden. repeat split.
    + intros E Hmsa. now apply ditch_area_zero.
    + intros E Hmsa. apply ditch_no_correction; [assumption|].
      fold L0 realized0. lra.
    + intros Hneg Hlt. apply ditch_correction; [assumption| |];
        fold L0 realized0; lra.
Qed.

Lemma ditch_zero_area_raises_witness :
  Watershaper.calculate_infiltration_ditch 1.5 0.5 0 4 50
    = Raise ZeroDivisionError.
Proof.
  destruct (ditch_zero_area_raises 1.5 0.5 0 4 50) as [_ Hnz].
  destruct Hnz as (Hraise & _ & _).
  - rewrite ditch_den_standard. lra.
  - apply Hraise; [apply ditch_area_of_zero_volume | lra].
Defined.

(** C3 fails as stated: with no volume to store and 4 of surface area to
    reach, the realized surface area at the initial length is 0, the solver
    divides by it and raises, and no outcome is returned. *)
Lemma ditch_zero_area_counterexample :
  ditchSurfaceArea (1.5 * 0.5) (ditch_slant 1.5 0.5) (ditch_length0 1.5 0.5 0)
    = 0 /\
  Watershaper.calculate_infiltration_ditch 1.5 0.5 0 4 50
    = Raise ZeroDivisionError /\
  ~ (exists outcome,
       Watershaper.calculate_infiltration_ditch 1.5 0.5 0 4 50 = Ok outcome).
Proof.
  assert (Hrun : Watershaper.calculate_infiltration_ditch 1.5 0.5 0 4 50
                 = Raise ZeroDivisionError).
  { apply ditch_area_zero.
    - rewrite ditch_den_standard. lra.
    - apply ditch_area_of_zero_volume.
    - lra. }
  split; [apply ditch_area_of_zero_volume|].
  split; [exact Hrun|].
  intros [outcome Hok]. rewrite Hrun in Hok. discriminate.
Qed.

(** C4, as amended.  With nothing to store and nothing to infiltrate the
    solver does not raise on a ditch of positive width and depth, and it
    returns the length 0, with volume 0 and surface area 0. *)
Theorem ditch_no_requirement (w d roof : R) :
  0 < w -> 0 < d ->
  Watershaper.calculate_infiltration_ditch w d 0 0 roof = Ok (0, 0, 0).
Proof.
  intros Hw Hd.
  pose proof (ditch_den_pos w d Hw Hd) as Hden.
  rewrite ditch_no_correction.
  - unfold ditch_at, ditchVolume, ditchSurfaceArea, ditch_length0, Rdiv.
    apply f_equal. apply f_equal2; [apply f_equal2|]; ring.
  - lra.
  - rewrite ditch_area_of_zero_volume. lra.
Qed.

Lemma ditch_no_requirement_witness :
  Watershaper.calculate_infiltration_ditch 1.5 0.5 0 0 50 = Ok (0, 0, 0).
Proof. apply (ditch_no_requirement 1.5 0.5 50); lra. Defined.

(** C4 fails as stated: the returned length is 0, not a positive minimal
    value. *)
Lemma ditch_no_requirement_counterexample :
  ~ (exists volume surface_area length,
       Watershaper.calculate_infiltration_ditch 1.5 0.5 0 0 50
         = Ok (volume, surface_area, length) /\
       0 < length).
Proof.
  intros (volume & surface_area & length & Hrun & Hpos).
  rewrite ditch_no_correction in Hrun.
  - unfold ditch_at, ditch_length0, Rdiv in Hrun.
    injection Hrun as _ _ Hlen. rewrite Rmult_0_l in Hlen. lra.
  - rewrite ditch_den_standard. lra.
  - rewrite ditch_area_of_zero_volume. lra.
Qed.

(** C9.  The result of [calculate_infiltration_ditch] does not depend on
    [roof_area], whatever the float arithmetic is. *)
Theorem ditch_ignores_roof_area (F : Type) (A : PyFloat F)
    (width depth min_volume min_surface_area roof_area roof_area' : F) :
  Watershaper.calculate_infiltration_ditch
    width depth min_volume min_surface_area roof_area
  = Watershaper.calculate_infiltration_ditch
    width depth min_volume min_surface_area roof_area'.
Proof. reflexivity. Qed.

(** C10.  The geometry functions of [infil.py] and of the watershaper
    script are the same functions, whatever the float arithmetic is. *)
Theorem geometry_variants_agree (F : Type) (A : PyFloat F) (a b c : F) :
  Infil.ellipsoid_surface_area_one_side a b c
    = Watershaper.ellipsoid_surface_area_one_side a b c /\
  Infil.ellipsoid_volume a b c = Watershaper.ellipsoid_volume a b c.
Proof. split; reflexivity. Qed.

(** ** The half-ellipsoid on the reals *)

Lemma py_pow_pos (x y : R) : 0 < x -> py_pow x y = Ok (Rpower x y).
Proof.
  intros Hx. unfold py_pow.
  destruct (Req_dec_T y 0) as [->|Hy].
  - now rewrite Rpower_O.
  - destruct (Req_dec_T x 0); [lra|].
    destruct (Rlt_dec 0 x); [reflexivity | contradiction].
Qed.

Lemma py_pow_nonneg (x y : R) :
  0 <= x -> 0 < y -> py_pow x y = Ok (Rpow_nonneg x y).
Proof.
  intros Hx Hy. unfold py_pow, Rpow_nonneg.
  destruct (Req_dec_T y 0); [lra|].
  destruct (Req_dec_T x 0).
  - destruct (Rlt_dec y 0); [lra | reflexivity].
  - destruct (Rlt_dec 0 x); [reflexivity | lra].
Qed.

Lemma Rpow_nonneg_ge0 (x y : R) : 0 <= Rpow_nonneg x y.
Proof.
  unfold Rpow_nonneg. destruct (Req_dec_T x 0); [lra|].
  unfold Rpower. left. apply exp_pos.
Qed.

Lemma Rpow_nonneg_pos (x y : R) : 0 < x -> Rpow_nonneg x y = Rpower x y.
Proof.
  intros Hx. unfold Rpow_nonneg. destruct (Req_dec_T x 0); [lra | reflexivity].
Qed.

(** On non-negative semi-axes the surface area is computed, and it is the
    Thomsen formula. *)
Lemma surface_area_nonneg (a b c : R) :
  0 <= a -> 0 <= b -> 0 <= c ->
  Infil.ellipsoid_surface_area_one_side a b c = Ok (thomsen_area a b c).
Proof.
  intros Ha Hb Hc. unfold Infil.ellipsoid_surface_area_one_side. cbn.
  change (16075 / 10000) with 1.6075.
  rewrite !py_pow_nonneg by nra. cbn.
  rewrite py_pow_nonneg; [reflexivity | | lra].
  pose proof (Rpow_nonneg_ge0 (a * b) 1.6075).
  pose proof (Rpow_nonneg_ge0 (a * c) 1.6075).
  pose proof (Rpow_nonneg_ge0 (b * c) 1.6075).
  lra.
Qed.





(** ** The objective of Policy A *)

Lemma squared_shortfall_met (minimum computed : R) :
  minimum <= computed -> squared_shortfall minimum computed = 0.
Proof.
  intros Hle. unfold squared_shortfall.
  destruct (Rlt_dec computed minimum); [lra | reflexivity].
Qed.

(** The objective, branch by branch. *)
Lemma objective_unfold (a b c min_surface_area min_volume : R) :
  Infil.objective [a; b] min_surface_area min_volume c
  = bind (Infil.ellipsoid_surface_area_one_side a b c)
      (fun surface_area =>
         Ok (penalty_spec min_surface_area min_volume
               surface_area (Infil.ellipsoid_volume a b c) + a + b)).
Proof.
  unfold Infil.objective. cbn [unpack2 bind].
  destruct (Infil.ellipsoid_surface_area_one_side a b c)
    as [surface_area|e]; [|reflexivity].
  cbn [bind fpow flt fadd fsub of_Z PyFloat_R].
  rewrite !py_pow_2.
  unfold penalty_spec, squared_shortfall, Rltb.
  destruct (Rlt_dec surface_area min_surface_area);
    destruct (Rlt_dec (Infil.ellipsoid_volume a b c) min_volume);
    cbn [bind]; f_equal; ring.
Qed.

Lemma objective_nonneg_axes (a b c min_surface_area min_volume : R) :
  0 <= a -> 0 <= b -> 0 <= c ->
  Infil.objective [a; b] min_surface_area min_volume c
  = Ok (penalty_spec min_surface_area min_volume
          (thomsen_area a b c) (Infil.ellipsoid_volume a b c) + a + b).
Proof.
  intros Ha Hb Hc.
  now rewrite objective_unfold, surface_area_nonneg by assumption.
Qed.

(** C5.  The objective of [infil.py] at [(a, b)] is the penalty of the
    specification plus [a + b], the penalty being taken at the surface area
    and the volume the geometry functions compute; on non-negative semi-axes
    and depth the surface area is computed, so the objective returns that
    number; and a quantity that reaches its minimum adds nothing. *)
Theorem objective_is_penalty_plus_footprint
    (a b c min_surface_area min_volume : R) :
  Infil.objective [a; b] min_surface_area min_volume c
    = bind (Infil.ellipsoid_surface_area_one_side a b c)
        (fun surface_area =>
           Ok (penalty_spec min_surface_area min_volume
                 surface_area (Infil.ellipsoid_volume a b c) + a + b))
  /\ (0 <= a -> 0 <= b -> 0 <= c ->
      exists surface_area,
        Infil.ellipsoid_surface_area_one_side a b c = Ok surface_area /\
        Infil.objective [a; b] min_surface_area min_volume c
          = Ok (penalty_spec min_surface_area min_volume
                  surface_area (Infil.ellipsoid_volume a b c) + a + b) /\
        (min_surface_area <= surface_area ->
         min_volume <= Infil.ellipsoid_volume a b c ->
         Infil.objective [a; b] min_surface_area min_volume c = Ok (a + b))).
Proof.
  split; [apply objective_unfold|].
  intros Ha Hb Hc. exists (thomsen_area a b c).
  rewrite objective_nonneg_axes by assumption.
  split; [now apply surface_area_nonneg|]. split; [reflexivity|].
  intros Hsa Hvol. unfold penalty_spec.
  rewrite !squared_shortfall_met by assumption. f_equal. ring.
Qed.

Lemma objective_is_penalty_plus_footprint_witness :
  exists surface_area,
    Infil.ellipsoid_surface_area_one_side 0.5 1 0.3 = Ok surface_area /\
    Infil.objective [0.5; 1] 8 3.3 0.3
      = Ok (penalty_spec 8 3.3 surface_area
              (Infil.ellipsoid_volume 0.5 1 0.3) + 0.5 + 1).
Proof.
  destruct (objective_is_penalty_plus_footprint 0.5 1 0.3 8 3.3)
    as [_ Htotal].
  destruct Htotal as (surface_area & Hsa & Hobj & _); try lra.
  exists surface_area. split; assumption.
Defined.

(** ** The search boxes *)

Lemma PI_bounds : 3.14 < PI < 3.15.
Proof.
  pose proof (PI_2_3_7_ineq 1) as [Hl Hu].
  unfold sum_f_R0, tg_alt, PI_2_3_7_tg, Ratan_seq in Hl, Hu.
  simpl in Hl, Hu. lra.
Qed.

Lemma in_box_pair (l1 h1 l2 h2 a b : R) :
  in_box [(l1, h1); (l2, h2)] [a; b] <-> (l1 <= a <= h1 /\ l2 <= b <= h2).
Proof.
  unfold in_box. split.
  - intros Hbox. inversion Hbox as [|? ? ? ? Ha Hrest]; subst.
    inversion Hrest as [|? ? ? ? Hb _]; subst. cbn in Ha, Hb. tauto.
  - intros [Ha Hb].
    apply Forall2_cons; [exact Ha|].
    apply Forall2_cons; [exact Hb | apply Forall2_nil].
Qed.

Lemma Infil_bounds_eq : Infil.bounds = [(0.1, 5); (0.1, 5)].
Proof. reflexivity. Qed.

Lemma Watershaper_bounds_eq : Watershaper.bounds = [(0.1, 100); (0.1, 100)].
Proof. reflexivity. Qed.

(** The volume a point of the box of Policy A can reach. *)
Lemma Infil_box_volume (a b c : R) :
  0 <= c -> in_box Infil.bounds [a; b] ->
  Infil.ellipsoid_volume a b c <= 2 / 3 * PI * 25 * c.
Proof.
  intros Hc Hbox. rewrite Infil_bounds_eq in Hbox.
  apply in_box_pair in Hbox as [Ha Hb].
  unfold Infil.ellipsoid_volume. cbn.
  pose proof PI_bounds as [HP _].
  assert (Hab : a * b <= 25) by nra.
  assert (HPc : 0 <= PI * c) by nra.
  nra.
Qed.

(** C6, as amended.  Both solvers hand the optimiser a box whose lower
    bound is 0.1, so every point of the search domain has [0.1 <= a] and
    [0.1 <= b].  The upper bound is 100 in Policy B and 5 in Policy A.  In
    the box of Policy A the volume is at most the volume at [a = b = 5]:
    for a larger minimum volume no point of the box reaches it. *)
Theorem search_boxes :
  Infil.bounds = [(0.1, 5); (0.1, 5)] /\
  Watershaper.bounds = [(0.1, 100); (0.1, 100)] /\
  (forall minimize msa mv depth,
     Infil.calculate_ellipsoid minimize msa mv depth
     = Infil.calculate_ellipsoid
         (fun objective x0 _ constraints =>
            minimize objective x0 [(0.1, 5); (0.1, 5)] constraints)
         msa mv depth) /\
  (forall minimize msa mv depth,
     Watershaper.calculate_ellipsoid minimize msa mv depth
     = Watershaper.calculate_ellipsoid
         (fun objective x0 _ constraints =>
            minimize objective x0 [(0.1, 100); (0.1, 100)] constraints)
         msa mv depth) /\
  (forall a b,
     in_box Infil.bounds [a; b] <-> 0.1 <= a <= 5 /\ 0.1 <= b <= 5) /\
  (forall a b,
     in_box Watershaper.bounds [a; b]
     <-> 0.1 <= a <= 100 /\ 0.1 <= b <= 100) /\
  (forall a b c,
     0 <= c -> in_box Infil.bounds [a; b] ->
     Infil.ellipsoid_volume a b c <= Infil.ellipsoid_volume 5 5 c) /\
  (forall a b c mv,
     0 <= c -> Infil.ellipsoid_volume 5 5 c < mv ->
     in_box Infil.bounds [a; b] ->
     Infil.ellipsoid_volume a b c < mv).
Proof.
  assert (Hcorner : forall c, Infil.ellipsoid_volume 5 5 c = 2 / 3 * PI * 25 * c).
  { intros c. unfold Infil.ellipsoid_volume. cbn. ring. }
  split; [reflexivity|]. split; [reflexivity|].
  split; [reflexivity|]. split; [reflexivity|].
  split; [|split; [|split]].
  - intros a b. rewrite Infil_bounds_eq. apply in_box_pair.
  - intros a b. rewrite Watershaper_bounds_eq. apply in_box_pair.
  - intros a b c Hc Hbox. rewrite Hcorner. now apply Infil_box_volume.
  - intros a b c mv Hc Hmv Hbox.
    pose proof (Infil_box_volume a b c Hc Hbox) as Hcap.
    rewrite Hcorner in Hmv. lra.
Qed.

Lemma search_boxes_witness :
  Infil.ellipsoid_volume 4 4.5 0.3 <= Infil.ellipsoid_volume 5 5 0.3.
Proof.
  destruct search_boxes as (_ & _ & _ & _ & Hbox & _ & Hcap & _).
  apply Hcap; [lra|]. apply Hbox. lra.
Defined.

Lemma Rpower_inv_base (x q : R) : 0 < x -> Rpower (/ x) q = / Rpower x q.
Proof.
  intros Hx.
  assert (Hp : 0 < Rpower x q) by (unfold Rpower; apply exp_pos).
  apply Rmult_eq_reg_l with (Rpower x q); [|lra].
  rewrite Rpower_mult_distr by (try assumption; now apply Rinv_0_lt_compat).
  rewrite Rinv_r by lra. rewrite Rinv_r by lra.
  unfold Rpower. rewrite ln_1, Rmult_0_r. apply exp_0.
Qed.

(** At the upper corner of the box of Policy A the surface area exceeds
    what the roof of 500 asks for. *)
Lemma thomsen_area_corner : 40 <= thomsen_area 5 5 0.3.
Proof.
  unfold thomsen_area.
  set (p := 1.6075). set (q := 1 / p).
  assert (Hp : 1 <= p) by (unfold p; lra).
  assert (Hq : 0 <= q <= 1).
  { unfold q, p. split; lra. }
  assert (Hpq : p * q = 1) by (unfold q, p; lra).
  rewrite (Rpow_nonneg_pos (5 * 5)) by lra.
  rewrite (Rpow_nonneg_pos (5 * 0.3)) by lra.
  set (P := Rpower (5 * 5) p). set (Q := Rpower (5 * 0.3) p).
  assert (HP : 25 <= P).
  { unfold P. rewrite <- (Rpower_1 25) at 1 by lra.
    replace (5 * 5) with 25 by lra. apply Rle_Rpower; lra. }
  assert (HQ : 0 < Q) by (unfold Q, Rpower; apply exp_pos).
  rewrite Rpow_nonneg_pos by lra.
  assert (H3 : 0 < Rpower 3 q <= 3).
  { split; [unfold Rpower; apply exp_pos|].
    rewrite <- (Rpower_1 3) at 2 by lra. apply Rle_Rpower; lra. }
  assert (Hlow : 25 * / Rpower 3 q <= Rpower ((P + Q + Q) / 3) q).
  { apply Rle_trans with (Rpower (P * / 3) q).
    - rewrite <- Rpower_mult_distr by lra.
      rewrite Rpower_inv_base by lra.
      unfold P. rewrite Rpower_mult, Hpq.
      replace (5 * 5) with 25 by lra. rewrite Rpower_1 by lra. lra.
    - apply Rle_Rpower_l; [lra|]. lra. }
  assert (H25 : 25 / 3 <= 25 * / Rpower 3 q).
  { unfold Rdiv. apply Rmult_le_compat_l; [lra|].
    apply Rinv_le_contravar; lra. }
  pose proof PI_bounds as [HPI _].
  nra.
Qed.

Lemma squared_shortfall_below (minimum computed : R) :
  computed < minimum ->
  squared_shortfall minimum computed = (minimum - computed) ^ 2.
Proof.
  intros Hlt. unfold squared_shortfall.
  destruct (Rlt_dec computed minimum); [reflexivity | contradiction].
Qed.

Lemma squared_shortfall_ge0 (minimum computed : R) :
  0 <= squared_shortfall minimum computed.
Proof.
  unfold squared_shortfall.
  destruct (Rlt_dec computed minimum); [apply pow2_ge_0 | lra].
Qed.

Lemma Infil_volume_eq (a b c : R) :
  Infil.ellipsoid_volume a b c = 2 / 3 * PI * a * b * c.
Proof. reflexivity. Qed.

(** For the requirement of a roof of 500 at the depth 0.3, the objective of
    Policy A is smallest at the upper corner of its box, and only there. *)
Lemma corner_minimises (a b : R) :
  in_box Infil.bounds [a; b] ->
  exists v v5,
    Infil.objective [a; b] 40 16.5 0.3 = Ok v /\
    Infil.objective [5; 5] 40 16.5 0.3 = Ok v5 /\
    v5 <= v /\ (v = v5 -> a = 5 /\ b = 5).
Proof.
  intros Hbox.
  pose proof (Infil_box_volume a b 0.3 ltac:(lra) Hbox) as HV.
  rewrite Infil_bounds_eq in Hbox. apply in_box_pair in Hbox as [Ha Hb].
  pose proof PI_bounds as [HPl HPu].
  rewrite !objective_nonneg_axes by lra.
  eexists _, _. split; [reflexivity|]. split; [reflexivity|].
  unfold penalty_spec.
  rewrite (squared_shortfall_met 40 (thomsen_area 5 5 0.3))
    by apply thomsen_area_corner.
  pose proof (squared_shortfall_ge0 40 (thomsen_area a b 0.3)) as Hss.
  rewrite !Infil_volume_eq in *.
  rewrite (squared_shortfall_below 16.5 (2 / 3 * PI * a * b * 0.3)) by lra.
  rewrite (squared_shortfall_below 16.5 (2 / 3 * PI * 5 * 5 * 0.3)) by lra.
  set (ss := squared_shortfall 40 (thomsen_area a b 0.3)) in *.
  set (s := 16.5 - 2 / 3 * PI * a * b * 0.3).
  set (s5 := 16.5 - 2 / 3 * PI * 5 * 5 * 0.3).
  assert (Hs5 : 0.75 <= s5) by (unfold s5; lra).
  assert (Huv : 2.55 * ((5 - a) + (5 - b)) <= 25 - a * b) by nra.
  assert (Hd : s - s5 = 0.2 * PI * (25 - a * b)) by (unfold s, s5; lra).
  assert (Hd' : 0.628 * (25 - a * b) <= s - s5) by (rewrite Hd; nra).
  assert (Hsum : 1.5 * (s - s5) <= s ^ 2 - s5 ^ 2) by nra.
  split; [lra|]. intros E. lra.
Qed.

(** C6 fails as stated for Policy A: its upper bound is 5, and it is active
    for the requirement of a roof of 500 (minimum surface area 40, minimum
    volume 16.5) at the depth 0.3.  Every point of the box stays below the
    minimum volume, the objective is smallest at the upper corner [(5, 5)]
    and only there, and the box of Policy B holds a point that reaches the
    minimum volume. *)
Lemma search_boxes_counterexample :
  Infil.bounds = [(0.1, 5); (0.1, 5)] /\
  Watershaper.min_surface_area (Watershaper.derive_requirements 500 false)
    = 40 /\
  Watershaper.min_volume (Watershaper.derive_requirements 500 false) = 16.5 /\
  (forall a b,
     in_box Infil.bounds [a; b] -> Infil.ellipsoid_volume a b 0.3 < 16.5) /\
  (forall a b,
     in_box Infil.bounds [a; b] ->
     exists v v5,
       Infil.objective [a; b] 40 16.5 0.3 = Ok v /\
       Infil.objective [5; 5] 40 16.5 0.3 = Ok v5 /\
       v5 <= v /\ (v = v5 -> a = 5 /\ b = 5)) /\
  (exists a b,
     in_box Watershaper.bounds [a; b] /\
     16.5 <= Watershaper.ellipsoid_volume a b 0.3).
Proof.
  pose proof PI_bounds as [HPl HPu].
  split; [reflexivity|]. split; [cbn; lra|]. split; [cbn; lra|].
  split; [|split].
  - intros a b Hbox.
    pose proof (Infil_box_volume a b 0.3 ltac:(lra) Hbox). lra.
  - apply corner_minimises.
  - exists 4, 7. split.
    + rewrite Watershaper_bounds_eq. apply in_box_pair. lra.
    + unfold Watershaper.ellipsoid_volume. cbn. lra.
Qed.

(** ** The requirements derived from the roof *)

(** The requirements are computed from the roof area as entered; the
    rainwell offset is subtracted afterwards and reaches the rainwell size
    only. *)
Lemma requirements_before_offset (roof : R) :
  let r := Watershaper.derive_requirements roof true in
  Watershaper.min_volume r = roof * 33 / 1000 /\
  Watershaper.min_surface_area r = roof * 0.08 /\
  Watershaper.roof_square_meters r = roof - 30.
Proof. cbn. repeat split; lra. Qed.

(** Hence the rainwell checkbox changes none of the three sizings. *)
Lemma rainwell_changes_no_sizing (F : Type) (A : PyFloat F)
    (minimize : minimizer F) (roof depth : F) :
  Watershaper.button_infiltratiekom minimize roof true
    = Watershaper.button_infiltratiekom minimize roof false /\
  Watershaper.button_wadi minimize roof true
    = Watershaper.button_wadi minimize roof false /\
  Watershaper.button_infiltratiegracht roof true depth
    = Watershaper.button_infiltratiegracht roof false depth.
Proof. repeat split; reflexivity. Qed.

(** C7 at a roof of 100 with a rainwell: the offset reaches the adjusted
    roof area and the rainwell size, and misses the minimum volume and the
    minimum surface area, which are those of the roof of 100 and not of the
    roof of 70. *)
Lemma rainwell_offset_misses_requirements :
  let r := Watershaper.derive_requirements 100 true in
  Watershaper.roof_square_meters r = 70 /\
  Watershaper.rainwell_size r = 5000 /\
  Watershaper.min_volume r = 3.3 /\
  Watershaper.min_surface_area r = 8 /\
  Watershaper.min_volume r <> (100 - 30) * 33 / 1000 /\
  Watershaper.min_surface_area r <> (100 - 30) * 0.08.
Proof.
  cbn. destruct (Rltb_spec (100 - 30) 80); [|lra].
  repeat split; lra.
Qed.

(** ** The constraints handed to the optimiser by Policy B *)

(** At a point [[a; b]] the two [ineq] functions are the volume in excess of
    the minimum and [b - 1.5 a]; what the optimiser makes of them is its own
    business. *)
Lemma Watershaper_constraints_at (c min_volume a b : R) :
  map (fun k => (type k, fun_ k [a; b])) (Watershaper.constraints c min_volume)
  = [ (ineq, Ok (Watershaper.ellipsoid_volume a b c - min_volume));
      (ineq, Ok (b - 1.5 * a)) ].
Proof. reflexivity. Qed.

(** ** Runs on binary64

    The inputs of the statements above, run on Python's own floats.  The two
    squares the ditch of width 1.5 and depth 0.5 asks of [**] are exact. *)

Section Binary64Runs.
Variable float_pow : float -> float -> result float.
Hypothesis square_075 : float_pow 0.75%float 2%float = Ok 0.5625%float.
Hypothesis square_05 : float_pow 0.5%float 2%float = Ok 0.25%float.

Let py64 : PyFloat float := Binary64.carrier float_pow.
#[local] Existing Instance py64.

Ltac run_ditch :=
  unfold Watershaper.calculate_infiltration_ditch, truediv, math_sqrt;
  cbv; rewrite square_075; cbv; rewrite square_05; cbv; reflexivity.

(** [calculate_infiltration_ditch(1.5, 0.5, 1.65, 4.0, 50)] is
    [(1.8, 4.0, 3.2)]. *)
Lemma binary64_ditch_example :
  @Watershaper.calculate_infiltration_ditch float py64
    (dec 15 1) (dec 5 1) (dec 165 2) (of_Z 4) (of_Z 50)
  = Ok (dec 18 1, of_Z 4, dec 32 1).
Proof. run_ditch. Qed.

(** [calculate_infiltration_ditch(1.5, 0.5, 0, 4.0, 50)] raises. *)
Lemma binary64_ditch_zero_area :
  @Watershaper.calculate_infiltration_ditch float py64
    (dec 15 1) (dec 5 1) (of_Z 0) (of_Z 4) (of_Z 50)
  = Raise ZeroDivisionError.
Proof. run_ditch. Qed.

(** [calculate_infiltration_ditch(1.5, 0.5, 0, 0, 50)] is
    [(0.0, 0.0, 0.0)]. *)
Lemma binary64_ditch_no_requirement :
  @Watershaper.calculate_infiltration_ditch float py64
    (dec 15 1) (dec 5 1) (of_Z 0) (of_Z 0) (of_Z 50)
  = Ok (of_Z 0, of_Z 0, of_Z 0).
Proof. run_ditch. Qed.

(** A roof of 100 with a rainwell: the requirements are 3.3 and 8.0, the
    adjusted roof is 70 and the rainwell 5000. *)
Lemma binary64_requirements :
  @Watershaper.derive_requirements float py64 (of_Z 100) true
  = {| Watershaper.min_volume := dec 33 1;
       Watershaper.min_surface_area := of_Z 8;
       Watershaper.roof_square_meters := of_Z 70;
       Watershaper.rainwell_size := of_Z 5000 |}.
Proof. cbv. reflexivity. Qed.
End Binary64Runs.

(** * Further properties *)


(** ** More on the half-ellipsoid *)

Lemma Rpower_pos (x y : R) : 0 < Rpower x y.
Proof. unfold Rpower. apply exp_pos. Qed.

Lemma Rpower_inverse_exponents (x : R) :
  0 < x -> Rpower (Rpower x 1.6075) (1 / 1.6075) = x.
Proof.
  intros Hx. rewrite Rpower_mult.
  replace (1.6075 * (1 / 1.6075)) with 1 by lra. now apply Rpower_1.
Qed.

Lemma Rpow_nonneg_le (x y e : R) :
  0 <= e -> 0 <= x <= y -> Rpow_nonneg x e <= Rpow_nonneg y e.
Proof.
  intros He [Hx Hxy]. unfold Rpow_nonneg.
  destruct (Req_dec_T x 0) as [->|Hnx]; destruct (Req_dec_T y 0) as [->|Hny];
    try lra.
  - left. apply Rpower_pos.
  - apply Rle_Rpower_l; lra.
Qed.

Lemma thomsen_area_pos_axes (a b c : R) :
  0 < a -> 0 < b -> 0 < c ->
  thomsen_area a b c
  = 2 * PI *
    Rpower ((Rpower (a * b) 1.6075 + Rpower (a * c) 1.6075
             + Rpower (b * c) 1.6075) / 3) (1 / 1.6075).
Proof.
  intros Ha Hb Hc. unfold thomsen_area.
  rewrite !(Rpow_nonneg_pos (_ * _)) by nra.
  rewrite Rpow_nonneg_pos; [reflexivity|].
  pose proof (Rpower_pos (a * b) 1.6075).
  pose proof (Rpower_pos (a * c) 1.6075).
  pose proof (Rpower_pos (b * c) 1.6075). lra.
Qed.

(** X2.  In exact arithmetic the approximation is exact on a half-sphere of
    radius [r]: the surface area is [2 pi r^2] and the volume
    [(2/3) pi r^3]. *)
Theorem hemisphere_is_exact (r : R) :
  0 < r ->
  Watershaper.ellipsoid_surface_area_one_side r r r = Ok (2 * PI * (r * r)) /\
  Watershaper.ellipsoid_volume r r r = 2 / 3 * PI * (r * r * r).
Proof.
  intros Hr. split.
  - change (@Watershaper.ellipsoid_surface_area_one_side R _)
      with (@Infil.ellipsoid_surface_area_one_side R _).
    rewrite surface_area_nonneg by lra. f_equal.
    rewrite thomsen_area_pos_axes by assumption.
    replace ((Rpower (r * r) 1.6075 + Rpower (r * r) 1.6075
              + Rpower (r * r) 1.6075) / 3)
      with (Rpower (r * r) 1.6075) by lra.
    rewrite Rpower_inverse_exponents by nra. reflexivity.
  - unfold Watershaper.ellipsoid_volume. cbn. lra.
Qed.

Lemma hemisphere_is_exact_witness :
  Watershaper.ellipsoid_surface_area_one_side 2 2 2 = Ok (2 * PI * (2 * 2)).
Proof. apply (hemisphere_is_exact 2). lra. Defined.



(** X4.  On non-negative semi-axes the surface area is computed, is not
    negative, and does not decrease when a semi-axis grows. *)
Theorem surface_area_monotone (a b c a' b' c' : R) :
  0 <= a <= a' -> 0 <= b <= b' -> 0 <= c <= c' ->
  exists s s',
    Watershaper.ellipsoid_surface_area_one_side a b c = Ok s /\
    Watershaper.ellipsoid_surface_area_one_side a' b' c' = Ok s' /\
    0 <= s <= s'.
Proof.
  intros Ha Hb Hc.
  exists (thomsen_area a b c), (thomsen_area a' b' c').
  change (@Watershaper.ellipsoid_surface_area_one_side R _)
    with (@Infil.ellipsoid_surface_area_one_side R _).
  rewrite !surface_area_nonneg by lra.
  split; [reflexivity|]. split; [reflexivity|].
  pose proof PI_bounds as [HPI _].
  unfold thomsen_area.
  pose proof (Rpow_nonneg_ge0 (a * b) 1.6075) as H1.
  pose proof (Rpow_nonneg_ge0 (a * c) 1.6075) as H2.
  pose proof (Rpow_nonneg_ge0 (b * c) 1.6075) as H3.
  pose proof (Rpow_nonneg_le (a * b) (a' * b') 1.6075 ltac:(lra) ltac:(nra)) as L1.
  pose proof (Rpow_nonneg_le (a * c) (a' * c') 1.6075 ltac:(lra) ltac:(nra)) as L2.
  pose proof (Rpow_nonneg_le (b * c) (b' * c') 1.6075 ltac:(lra) ltac:(nra)) as L3.
  set (S := (Rpow_nonneg (a * b) 1.6075 + Rpow_nonneg (a * c) 1.6075
             + Rpow_nonneg (b * c) 1.6075) / 3) in *.
  set (S' := (Rpow_nonneg (a' * b') 1.6075 + Rpow_nonneg (a' * c') 1.6075
              + Rpow_nonneg (b' * c') 1.6075) / 3) in *.
  assert (HS : 0 <= S <= S') by (unfold S, S'; lra).
  pose proof (Rpow_nonneg_ge0 S (1 / 1.6075)) as H4.
  pose proof (Rpow_nonneg_le S S' (1 / 1.6075) ltac:(lra) HS) as L4.
  split; nra.
Qed.

Lemma surface_area_monotone_witness :
  exists s s',
    Watershaper.ellipsoid_surface_area_one_side 1 1.5 0.3 = Ok s /\
    Watershaper.ellipsoid_surface_area_one_side 1 2 0.5 = Ok s' /\
    0 <= s <= s'.
Proof. apply (surface_area_monotone 1 1.5 0.3 1 2 0.5); lra. Defined.





(** X1.  The volume does not change when two semi-axes are exchanged, and it
    is linear in each semi-axis. *)
Theorem volume_symmetric_linear (k a b c : R) :
  Watershaper.ellipsoid_volume a b c = Watershaper.ellipsoid_volume b a c /\
  Watershaper.ellipsoid_volume a b c = Watershaper.ellipsoid_volume a c b /\
  Watershaper.ellipsoid_volume (k * a) b c
    = k * Watershaper.ellipsoid_volume a b c /\
  Watershaper.ellipsoid_volume a (k * b) c
    = k * Watershaper.ellipsoid_volume a b c /\
  Watershaper.ellipsoid_volume a b (k * c)
    = k * Watershaper.ellipsoid_volume a b c.
Proof. unfold Watershaper.ellipsoid_volume. cbn. repeat split; ring. Qed.

(** ** More on the two objectives *)

Lemma squared_shortfall_zero (minimum computed : R) :
  squared_shortfall minimum computed = 0 <-> minimum <= computed.
Proof.
  split; [|apply squared_shortfall_met].
  unfold squared_shortfall.
  destruct (Rlt_dec computed minimum) as [Hlt|Hge]; [|lra].
  intros E. assert (0 < (minimum - computed) ^ 2) by nra. lra.
Qed.

(** X7.  In exact arithmetic, on non-negative semi-axes, the objective of
    Policy A is at least the footprint [a + b], and equals it exactly when
    the surface area and the volume both reach their minimum. *)
Theorem objective_bounded_by_footprint (a b c msa mv : R) :
  0 <= a -> 0 <= b -> 0 <= c ->
  exists value surface_area,
    Infil.objective [a; b] msa mv c = Ok value /\
    Infil.ellipsoid_surface_area_one_side a b c = Ok surface_area /\
    a + b <= value /\
    (value = a + b <->
     msa <= surface_area /\ mv <= Infil.ellipsoid_volume a b c).
Proof.
  intros Ha Hb Hc.
  eexists _, (thomsen_area a b c).
  rewrite objective_nonneg_axes, surface_area_nonneg by assumption.
  split; [reflexivity|]. split; [reflexivity|].
  unfold penalty_spec.
  pose proof (squared_shortfall_ge0 msa (thomsen_area a b c)) as H1.
  pose proof (squared_shortfall_ge0 mv (Infil.ellipsoid_volume a b c)) as H2.
  pose proof (squared_shortfall_zero msa (thomsen_area a b c)) as Z1.
  pose proof (squared_shortfall_zero mv (Infil.ellipsoid_volume a b c)) as Z2.
  split; [lra|]. split.
  - intros E. split; [apply Z1 | apply Z2]; lra.
  - intros [E1 E2]. apply Z1 in E1. apply Z2 in E2. lra.
Qed.

Lemma objective_bounded_by_footprint_witness :
  exists value surface_area,
    Infil.objective [0.5; 1] 8 3.3 0.3 = Ok value /\
    Infil.ellipsoid_surface_area_one_side 0.5 1 0.3 = Ok surface_area /\
    0.5 + 1 <= value /\
    (value = 0.5 + 1 <->
     8 <= surface_area /\ 3.3 <= Infil.ellipsoid_volume 0.5 1 0.3).
Proof. apply (objective_bounded_by_footprint 0.5 1 0.3 8 3.3); lra. Defined.

Lemma Watershaper_objective_nonneg_axes (a b c msa mv : R) :
  0 <= a -> 0 <= b -> 0 <= c ->
  Watershaper.objective [a; b] msa c mv
  = Ok (Rabs (thomsen_area a b c - msa)
        + Rabs (Watershaper.ellipsoid_volume a b c - mv)).
Proof.
  intros Ha Hb Hc. unfold Watershaper.objective. cbn [unpack2 bind].
  change (@Watershaper.ellipsoid_surface_area_one_side R _)
    with (@Infil.ellipsoid_surface_area_one_side R _).
  now rewrite surface_area_nonneg by assumption.
Qed.

(** X8.  On non-negative semi-axes the objective of Policy B is not negative,
    and is 0 exactly when the surface area and the volume both equal their
    minimum. *)
Theorem residual_objective_zero_at_match (a b c msa mv : R) :
  0 <= a -> 0 <= b -> 0 <= c ->
  exists value surface_area,
    Watershaper.objective [a; b] msa c mv = Ok value /\
    Watershaper.ellipsoid_surface_area_one_side a b c = Ok surface_area /\
    0 <= value /\
    (value = 0 <->
     surface_area = msa /\ Watershaper.ellipsoid_volume a b c = mv).
Proof.
  intros Ha Hb Hc. eexists _, (thomsen_area a b c).
  rewrite Watershaper_objective_nonneg_axes by assumption.
  split; [reflexivity|]. split.
  { change (@Watershaper.ellipsoid_surface_area_one_side R _)
      with (@Infil.ellipsoid_surface_area_one_side R _).
    now apply surface_area_nonneg. }
  set (s := thomsen_area a b c - msa).
  set (v := Watershaper.ellipsoid_volume a b c - mv).
  pose proof (Rabs_pos s). pose proof (Rabs_pos v).
  split; [lra|]. split.
  - intros E. assert (Rabs s = 0 /\ Rabs v = 0) as [Es Ev] by lra.
    split.
    + destruct (Req_dec s 0) as [Z|N]; [unfold s in Z; lra|].
      apply Rabs_no_R0 in N. contradiction.
    + destruct (Req_dec v 0) as [Z|N]; [unfold v in Z; lra|].
      apply Rabs_no_R0 in N. contradiction.
  - intros [Es Ev].
    replace s with 0 by (unfold s; lra). replace v with 0 by (unfold v; lra).
    rewrite Rabs_R0. lra.
Qed.

Lemma residual_objective_zero_at_match_witness :
  exists value surface_area,
    Watershaper.objective [1; 1.5] 4 0.5 1.65 = Ok value /\
    Watershaper.ellipsoid_surface_area_one_side 1 1.5 0.5 = Ok surface_area /\
    0 <= value /\
    (value = 0 <->
     surface_area = 4 /\ Watershaper.ellipsoid_volume 1 1.5 0.5 = 1.65).
Proof. apply (residual_objective_zero_at_match 1 1.5 0.5 4 1.65); lra. Defined.

(** X9.  Both objectives raise [ValueError] unless [params] has exactly two
    entries.  The constraint functions of Policy B are less strict: they
    raise [IndexError] below two entries and accept any longer list. *)
Theorem params_arity (params : list R) (msa mv c : R) :
  (length params <> 2%nat ->
     Infil.objective params msa mv c = Raise ValueError /\
     Watershaper.objective params msa c mv = Raise ValueError) /\
  ((length params < 2)%nat ->
     Forall (fun k => fun_ k params = Raise IndexError)
       (Watershaper.constraints c mv)) /\
  ((2 <= length params)%nat ->
     Forall (fun k => exists v, fun_ k params = Ok v)
       (Watershaper.constraints c mv)).
Proof.
  split; [|split].
  - intros Hlen. destruct params as [|a [|b [|? ?]]]; cbn in Hlen;
      try lia; split; reflexivity.
  - intros Hlen. destruct params as [|a [|b ?]]; cbn in Hlen; try lia;
      repeat constructor.
  - intros Hlen. destruct params as [|a [|b ?]]; cbn in Hlen; try lia.
    repeat constructor; eexists; reflexivity.
Qed.

Lemma params_arity_witness :
  Infil.objective [1; 2; 3] 8 3.3 0.3 = Raise ValueError /\
  Watershaper.objective [1; 2; 3] 8 0.3 3.3 = Raise ValueError /\
  Forall (fun k => exists v, fun_ k [1; 2; 3] = Ok v)
    (Watershaper.constraints 0.3 3.3).
Proof.
  destruct (params_arity [1; 2; 3] 8 3.3 0.3) as (Hobj & _ & Hcons).
  destruct Hobj as [HA HB]; [cbn; lia|].
  repeat split; try assumption. apply Hcons. cbn. lia.
Defined.

(** ** The start and the constraints of Policy B *)

Lemma satisfies_pair (c mv a b : R) :
  satisfies (Watershaper.constraints c mv) [a; b] <->
  (mv <= Watershaper.ellipsoid_volume a b c /\ 1.5 * a <= b).
Proof.
  unfold satisfies, Watershaper.constraints. split.
  - intros H. inversion H as [|? ? H1 Hrest]; subst.
    inversion Hrest as [|? ? H2 _]; subst.
    destruct H1 as (v1 & E1 & P1). destruct H2 as (v2 & E2 & P2).
    cbn in E1, E2. injection E1 as <-. injection E2 as <-.
    unfold Watershaper.ellipsoid_volume in *. cbn in *. lra.
  - intros [Hv He]. constructor; [|constructor; [|constructor]];
      eexists; (split; [reflexivity|]);
      unfold Watershaper.ellipsoid_volume in *; cbn in *; lra.
Qed.

(** X10.  For a positive minimum surface area the initial guess of Policy B,
    [(msa / 100, msa / 80)], breaks the constraint [b >= 1.5 a] it is handed
    with, and it lies in the box exactly when [10 <= msa <= 8000]. *)
Theorem initial_guess_infeasible (msa c mv : R) :
  0 < msa ->
  ~ satisfies (Watershaper.constraints c mv) (Watershaper.initial_guess msa) /\
  (in_box Watershaper.bounds (Watershaper.initial_guess msa)
     <-> 10 <= msa <= 8000).
Proof.
  intros Hmsa. unfold Watershaper.initial_guess. cbn [fquot of_Z PyFloat_R].
  split.
  - rewrite satisfies_pair. lra.
  - rewrite Watershaper_bounds_eq, in_box_pair. lra.
Qed.

Lemma initial_guess_infeasible_witness :
  ~ satisfies (Watershaper.constraints 0.5 1.65) (Watershaper.initial_guess 4)
  /\ (in_box Watershaper.bounds (Watershaper.initial_guess 4)
      <-> 10 <= 4 <= 8000).
Proof. apply (initial_guess_infeasible 4 0.5 1.65). lra. Defined.

(** X11.  The box of Policy B holds a point that satisfies both constraints
    exactly when the minimum volume is at most the volume at
    [a = 200/3], [b = 100]. *)
Theorem constraints_feasible_iff (c mv : R) :
  0 <= c ->
  (exists a b,
     in_box Watershaper.bounds [a; b] /\
     satisfies (Watershaper.constraints c mv) [a; b])
  <-> mv <= Watershaper.ellipsoid_volume (200 / 3) 100 c.
Proof.
  intros Hc. pose proof PI_bounds as [HPI _].
  split.
  - intros (a & b & Hbox & Hsat).
    rewrite Watershaper_bounds_eq in Hbox. apply in_box_pair in Hbox.
    apply satisfies_pair in Hsat. destruct Hsat as [Hv He].
    unfold Watershaper.ellipsoid_volume in *. cbn in *.
    assert (Hab : a * b <= 200 / 3 * 100) by nra.
    assert (HPc : 0 <= PI * c) by nra.
    nra.
  - intros Hmv. exists (200 / 3), 100. split.
    + rewrite Watershaper_bounds_eq. apply in_box_pair. lra.
    + apply satisfies_pair. lra.
Qed.

Lemma constraints_feasible_iff_witness :
  (exists a b,
     in_box Watershaper.bounds [a; b] /\
     satisfies (Watershaper.constraints 0.5 1.65) [a; b])
  <-> 1.65 <= Watershaper.ellipsoid_volume (200 / 3) 100 0.5.
Proof. apply (constraints_feasible_iff 0.5 1.65). lra. Defined.

(** ** More on the ditch solver *)

Lemma ditch_area_at_length0 (w d mv : R) :
  ditchSurfaceArea (w * 0.5) (ditch_slant w d) (ditch_length0 w d mv)
  = 2 * ditch_slant w d * ditch_length0 w d mv.
Proof. reflexivity. Qed.

Lemma ditch_closed_form (w d mv msa roof : R) :
  0 < w -> 0 < d -> (mv <> 0 \/ msa <= 0) ->
  Watershaper.calculate_infiltration_ditch w d mv msa roof
  = Ok (ditch_at w d (ditch_length w d mv msa)).
Proof.
  intros Hw Hd Hcase.
  pose proof (ditch_den_pos w d Hw Hd) as Hden.
  pose proof (ditch_slant_pos w d Hd) as Hsl.
  set (L0 := ditch_length0 w d mv).
  set (sa0 := ditchSurfaceArea (w * 0.5) (ditch_slant w d) L0).
  assert (Hsa0 : sa0 = 2 * ditch_slant w d * L0) by reflexivity.
  assert (HL0 : L0 * ditch_den w d = mv).
  { unfold L0, ditch_length0. field. lra. }
  assert (Hq : msa / (2 * ditch_slant w d) * (2 * ditch_slant w d) = msa)
    by (field; lra).
  unfold ditch_length. fold L0.
  set (q := msa / (2 * ditch_slant w d)) in *.
  destruct (Rlt_dec sa0 msa) as [Hlt|Hge].
  - assert (Hnz : sa0 <> 0).
    { intros E. destruct Hcase as [Hmv|Hmsa]; [|lra].
      apply Hmv. rewrite <- HL0. rewrite Hsa0 in E.
      assert (L0 = 0) by nra. subst L0. rewrite H. ring. }
    rewrite ditch_correction; [|lra|exact Hlt|exact Hnz].
    fold L0 sa0. f_equal. f_equal.
    assert (Hlq : L0 < q) by nra.
    rewrite Rmax_right by lra.
    unfold q. rewrite Hsa0. field. split; [lra|].
    rewrite Hsa0 in Hnz. intros E. apply Hnz. rewrite E. ring.
  - rewrite ditch_no_correction; [|lra|fold L0 sa0; lra].
    fold L0. f_equal. f_equal.
    assert (Hlq : q <= L0) by nra.
    now rewrite Rmax_left by lra.
Qed.

(** X12.  For a positive width, depth and minimum volume and a non-negative
    minimum surface area, the ditch solver returns the larger of the length
    the volume asks for and the length the surface area asks for.  Both
    minima are met, one of them exactly, and no shorter ditch meets both. *)
Theorem ditch_shortest_length (w d mv msa roof : R) :
  0 < w -> 0 < d -> 0 < mv -> 0 <= msa ->
  exists volume surface_area length,
    Watershaper.calculate_infiltration_ditch w d mv msa roof
      = Ok (volume, surface_area, length) /\
    length = Rmax (mv / ((w * 0.5 + w) / 2 * d))
                  (msa / (2 * ditch_slant w d)) /\
    mv <= volume /\ msa <= surface_area /\
    (volume = mv \/ surface_area = msa) /\
    (forall L,
       mv <= ditchVolume (w * 0.5) w d L ->
       msa <= ditchSurfaceArea (w * 0.5) (ditch_slant w d) L ->
       length <= L).
Proof.
  intros Hw Hd Hmv Hmsa.
  pose proof (ditch_den_pos w d Hw Hd) as Hden.
  pose proof (ditch_slant_pos w d Hd) as Hsl.
  rewrite ditch_closed_form by (try assumption; left; lra).
  eexists _, _, _. split; [reflexivity|].
  split; [reflexivity|].
  unfold ditch_length, ditch_length0, ditchVolume, ditchSurfaceArea.
  fold (ditch_den w d).
  replace ((w * 0.5 + w) / 2 * d) with (ditch_den w d) by reflexivity.
  set (L0 := mv / ditch_den w d).
  set (q := msa / (2 * ditch_slant w d)).
  assert (HL0 : ditch_den w d * L0 = mv) by (unfold L0; field; lra).
  assert (Hq : 2 * ditch_slant w d * q = msa) by (unfold q; field; lra).
  pose proof (Rmax_l L0 q) as Ml. pose proof (Rmax_r L0 q) as Mr.
  assert (Mc : Rmax L0 q = L0 \/ Rmax L0 q = q).
  { unfold Rmax. destruct (Rle_dec L0 q); tauto. }
  split; [nra|]. split; [nra|]. split.
  - destruct Mc as [-> | ->]; [left | right]; lra.
  - intros L HV HS.
    assert (L0 <= L) by nra. assert (q <= L) by nra.
    destruct Mc as [-> | ->]; assumption.
Qed.

Lemma ditch_shortest_length_witness :
  exists volume surface_area length,
    Watershaper.calculate_infiltration_ditch 1.5 0.5 1.65 4 50
      = Ok (volume, surface_area, length) /\
    1.65 <= volume /\ 4 <= surface_area.
Proof.
  destruct (ditch_shortest_length 1.5 0.5 1.65 4 50)
    as (volume & surface_area & length & Hrun & _ & Hv & Hs & _); try lra.
  exists volume, surface_area, length. repeat split; assumption.
Defined.

(** X13.  In exact arithmetic the ditch solver raises [ZeroDivisionError]
    exactly when the width is 0, the depth is 0, or the minimum volume is 0
    while the minimum surface area is positive. *)
Theorem ditch_raises_exactly (w d mv msa roof : R) :
  Watershaper.calculate_infiltration_ditch w d mv msa roof
    = Raise ZeroDivisionError
  <-> (w = 0 \/ d = 0 \/ (mv = 0 /\ 0 < msa)).
Proof.
  rewrite ditch_unfold. cbv zeta.
  assert (Hden : ditch_den w d = 0 <-> w = 0 \/ d = 0).
  { unfold ditch_den. split.
    - intros E. assert (w * d = 0) by lra.
      apply Rmult_integral in H. exact H.
    - intros [-> | ->]; lra. }
  destruct (Req0b_spec (ditch_den w d)) as [E|N].
  { split; [intros _|reflexivity]. apply Hden in E. tauto. }
  assert (Hw : w <> 0) by tauto. assert (Hd : d <> 0) by tauto.
  assert (Hsl : 0 < ditch_slant w d).
  { unfold ditch_slant. apply sqrt_lt_R0. nra. }
  set (sa0 := ditchSurfaceArea (w * 0.5) (ditch_slant w d)
                (ditch_length0 w d mv)).
  assert (Hsa0 : sa0 = 0 <-> mv = 0).
  { unfold sa0, ditchSurfaceArea, ditch_length0. split.
    - intros E.
      assert (Hm : mv / ditch_den w d = 0) by nra.
      replace mv with (mv / ditch_den w d * ditch_den w d) by (field; exact N).
      rewrite Hm. ring.
    - intros ->. unfold Rdiv. ring. }
  destruct (Rltb_spec sa0 msa) as [Hlt|Hge].
  - destruct (Req0b_spec sa0) as [E|Nz].
    + split; [intros _|reflexivity].
      right. right. split; [tauto|lra].
    + split; [discriminate|].
      intros [?|[?|[Hmv _]]]; try contradiction. tauto.
  - split; [discriminate|].
    intros [?|[?|[Hmv Hmsa]]]; try contradiction.
    apply Hsa0 in Hmv. lra.
Qed.

Lemma ditch_raises_exactly_witness :
  Watershaper.calculate_infiltration_ditch 1.5 0 1.65 4 50
    = Raise ZeroDivisionError.
Proof.
  destruct (ditch_raises_exactly 1.5 0 1.65 4 50) as [_ Hraise].
  apply Hraise. right. left. reflexivity.
Defined.

(** X14.  In exact arithmetic larger requirements never give a smaller
    ditch: length, volume and surface area do not decrease when the minimum
    volume and the minimum surface area grow. *)
Theorem ditch_monotone (w d mv msa mv' msa' roof roof' : R) :
  0 < w -> 0 < d -> 0 < mv <= mv' -> 0 <= msa <= msa' ->
  exists v s l v' s' l',
    Watershaper.calculate_infiltration_ditch w d mv msa roof
      = Ok (v, s, l) /\
    Watershaper.calculate_infiltration_ditch w d mv' msa' roof'
      = Ok (v', s', l') /\
    l <= l' /\ v <= v' /\ s <= s'.
Proof.
  intros Hw Hd Hmv Hmsa.
  pose proof (ditch_den_pos w d Hw Hd) as Hden.
  pose proof (ditch_slant_pos w d Hd) as Hsl.
  rewrite !ditch_closed_form by (try assumption; left; lra).
  eexists _, _, _, _, _, _. split; [reflexivity|]. split; [reflexivity|].
  assert (Hl : ditch_length w d mv msa <= ditch_length w d mv' msa').
  { unfold ditch_length, ditch_length0.
    apply Rmax_lub.
    - eapply Rle_trans; [|apply Rmax_l].
      unfold Rdiv. apply Rmult_le_compat_r; [|lra].
      left. now apply Rinv_0_lt_compat.
    - eapply Rle_trans; [|apply Rmax_r].
      unfold Rdiv. apply Rmult_le_compat_r; [|lra].
      left. apply Rinv_0_lt_compat. lra. }
  split; [exact Hl|].
  unfold ditchVolume, ditchSurfaceArea. fold (ditch_den w d).
  replace ((w * 0.5 + w) / 2 * d) with (ditch_den w d) by reflexivity.
  split; nra.
Qed.

Lemma ditch_monotone_witness :
  exists v s l v' s' l',
    Watershaper.calculate_infiltration_ditch 1.5 0.5 1.65 4 50
      = Ok (v, s, l) /\
    Watershaper.calculate_infiltration_ditch 1.5 0.5 3.3 8 100
      = Ok (v', s', l') /\
    l <= l' /\ v <= v' /\ s <= s'.
Proof. apply (ditch_monotone 1.5 0.5 1.65 4 3.3 8 50 100); lra. Defined.

(** ** The ditch button and the rainwell size *)

Lemma button_ditch_eq (roof depth : R) (has_rainwell : bool) :
  Watershaper.button_infiltratiegracht roof has_rainwell depth
  = Watershaper.calculate_infiltration_ditch 1.5 depth
      (roof * 33 / 1000) (roof * 0.08)
      (if has_rainwell then roof - 30 else roof).
Proof. destruct has_rainwell; reflexivity. Qed.

Lemma ditch_length_scales (k w d mv msa : R) :
  0 <= k ->
  ditch_length w d (k * mv) (k * msa) = k * ditch_length w d mv msa.
Proof.
  intros Hk. unfold ditch_length, ditch_length0.
  rewrite <- RmaxRmult by assumption. f_equal; unfold Rdiv; ring.
Qed.

(** X15.  In exact arithmetic the ditch of the script is proportional to
    the roof: a roof [k] times as large gives [k] times the volume, surface
    area and length. *)
Theorem ditch_proportional_to_roof (k roof depth : R) (has_rainwell : bool) :
  0 < k -> 0 < roof -> 0 < depth ->
  exists volume surface_area length,
    Watershaper.button_infiltratiegracht roof has_rainwell depth
      = Ok (volume, surface_area, length) /\
    Watershaper.button_infiltratiegracht (k * roof) has_rainwell depth
      = Ok (k * volume, k * surface_area, k * length).
Proof.
  intros Hk Hroof Hd.
  rewrite !button_ditch_eq.
  rewrite !ditch_closed_form by (try lra; left; nra).
  eexists _, _, _. split; [reflexivity|].
  replace (k * roof * 33 / 1000) with (k * (roof * 33 / 1000)) by lra.
  replace (k * roof * 0.08) with (k * (roof * 0.08)) by lra.
  rewrite ditch_length_scales by lra.
  unfold ditch_at, ditchVolume, ditchSurfaceArea.
  apply f_equal. apply f_equal2; [apply f_equal2|]; ring.
Qed.

Lemma ditch_proportional_to_roof_witness :
  exists volume surface_area length,
    Watershaper.button_infiltratiegracht 50 false 0.5
      = Ok (volume, surface_area, length) /\
    Watershaper.button_infiltratiegracht (2 * 50) false 0.5
      = Ok (2 * volume, 2 * surface_area, 2 * length).
Proof. apply (ditch_proportional_to_roof 2 50 0.5 false); lra. Defined.

Lemma Rdiv_mult_cancel (x y : R) : y <> 0 -> x / y * y = x.
Proof. intros Hy. field. exact Hy. Qed.

Lemma ditch_slant_standard (d : R) :
  ditch_slant 1.5 d = sqrt (0.140625 + d * d).
Proof. unfold ditch_slant. f_equal. lra. Qed.

Lemma ditch_den_standard_depth (d : R) : ditch_den 1.5 d = 1.125 * d.
Proof. unfold ditch_den. lra. Qed.

(** X16.  In exact arithmetic, at the width 1.5 of the script, the depth
    decides which requirement sets the length: from 0.5 on the surface area
    is met exactly and the volume exceeds its minimum; up to 0.4 the volume
    is met exactly and the surface area exceeds its minimum. *)
Theorem ditch_driving_requirement (roof depth : R) (has_rainwell : bool) :
  0 < roof -> 0 < depth ->
  exists volume surface_area length,
    Watershaper.button_infiltratiegracht roof has_rainwell depth
      = Ok (volume, surface_area, length) /\
    (0.5 <= depth ->
       surface_area = roof * 0.08 /\ roof * 33 / 1000 < volume) /\
    (depth <= 0.4 ->
       volume = roof * 33 / 1000 /\ roof * 0.08 < surface_area).
Proof.
  intros Hroof Hd. rewrite button_ditch_eq.
  set (mv := roof * 33 / 1000). set (msa := roof * 0.08).
  pose proof (ditch_slant_pos 1.5 depth Hd) as Hsl.
  assert (Hden : ditch_den 1.5 depth <> 0)
    by (rewrite ditch_den_standard_depth; lra).
  set (sl := ditch_slant 1.5 depth) in *.
  assert (Hsq : sl * sl = 0.140625 + depth * depth).
  { unfold sl. rewrite ditch_slant_standard. apply sqrt_sqrt. nra. }
  set (L0 := ditch_length0 1.5 depth mv).
  assert (HL0 : L0 * (1.125 * depth) = mv).
  { rewrite <- ditch_den_standard_depth.
    unfold L0, ditch_length0. now apply Rdiv_mult_cancel. }
  assert (HL0pos : 0 < L0) by (unfold mv in HL0; nra).
  set (sa0 := ditchSurfaceArea (1.5 * 0.5) sl L0).
  assert (Hsa0 : sa0 = 2 * sl * L0) by reflexivity.
  (* the comparison of the source, in terms of the depth *)
  assert (Hcmp : sa0 < msa <-> 11 * sl < 15 * depth).
  { rewrite Hsa0. unfold msa.
    assert (Hroof' : roof = L0 * (1.125 * depth) * 1000 / 33)
      by (rewrite HL0; unfold mv; lra).
    split; intros H.
    - rewrite Hroof' in H. nra.
    - rewrite Hroof'. nra. }
  destruct (Rlt_dec sa0 msa) as [Hlt|Hge].
  - rewrite ditch_correction; [|exact Hden|exact Hlt|fold L0 sl sa0; nra].
    fold L0 sl sa0. eexists _, _, _. split; [reflexivity|].
    apply Hcmp in Hlt. split.
    + intros _. unfold ditchSurfaceArea, ditchVolume. fold sl. split.
      * rewrite Hsa0. unfold msa. field. split; lra.
      * assert (Hscale : 1 < msa / sa0).
        { apply Rmult_lt_reg_r with sa0; [nra|].
          replace (msa / sa0 * sa0) with msa by (field; nra).
          apply Hcmp in Hlt. lra. }
        fold mv. rewrite <- HL0.
        set (t := msa / sa0) in *. assert (0 < L0 * depth) by nra. nra.
    + intros Hshallow. exfalso. nra.
  - rewrite ditch_no_correction; [|exact Hden|fold L0 sl sa0; lra].
    fold L0 sl. eexists _, _, _. split; [reflexivity|].
    assert (Hn : ~ 11 * sl < 15 * depth) by (intros H; apply Hge, Hcmp, H).
    split.
    + intros Hdeep. exfalso. apply Hn. nra.
    + intros Hshallow. unfold ditchVolume, ditchSurfaceArea. fold sl. split.
      * fold mv. rewrite <- HL0. lra.
      * fold msa. fold sa0 in Hsa0. 
        assert (15 * depth < 11 * sl) by nra.
        assert (msa < sa0); [|unfold sa0, ditchSurfaceArea in *; lra].
        destruct (Rle_lt_dec sa0 msa) as [Hle|Hgt]; [|exact Hgt].
        exfalso. destruct Hle as [Hlt'|Heq]; [contradiction|].
        rewrite Hsa0 in Heq. unfold msa in Heq.
        assert (Hroof' : roof = L0 * (1.125 * depth) * 1000 / 33)
          by (rewrite HL0; unfold mv; lra).
        rewrite Hroof' in Heq. nra.
Qed.

Lemma ditch_driving_requirement_witness :
  exists volume surface_area length,
    Watershaper.button_infiltratiegracht 50 false 0.5
      = Ok (volume, surface_area, length) /\
    surface_area = 50 * 0.08 /\ 50 * 33 / 1000 < volume.
Proof.
  destruct (ditch_driving_requirement 50 0.5 false)
    as (volume & surface_area & length & Hrun & Hdeep & _); try lra.
  exists volume, surface_area, length.
  split; [exact Hrun|]. apply Hdeep. lra.
Defined.

(** X17.  In exact arithmetic the ditch button never shows the warning: for a
    roof that is not negative and a positive depth the solver returns and
    the returned volume is not below the minimum volume. *)
Theorem ditch_button_never_warns (roof depth : R) (has_rainwell : bool) :
  0 <= roof -> 0 < depth ->
  Watershaper.infiltratiegracht_message roof has_rainwell depth
    = Ok Watershaper.volume_met.
Proof.
  intros Hroof Hd. unfold Watershaper.infiltratiegracht_message.
  rewrite button_ditch_eq.
  rewrite ditch_closed_form
    by first [lra | destruct Hroof; [left | right]; lra].
  cbn [bind ditch_at].
  assert (Hmv : Watershaper.min_volume
                  (Watershaper.derive_requirements roof has_rainwell)
                = roof * 33 / 1000) by (destruct has_rainwell; reflexivity).
  rewrite Hmv. cbn [flt PyFloat_R].
  destruct (Rltb_spec
              (ditchVolume (1.5 * 0.5) 1.5 depth
                 (ditch_length 1.5 depth (roof * 33 / 1000) (roof * 0.08)))
              (roof * 33 / 1000)) as [Hlt|_]; [|reflexivity].
  exfalso. revert Hlt. unfold ditchVolume, ditch_length.
  pose proof (Rmax_l (ditch_length0 1.5 depth (roof * 33 / 1000))
                (roof * 0.08 / (2 * ditch_slant 1.5 depth))) as Hmax.
  set (L := Rmax _ _) in *.
  assert (HL0 : ditch_length0 1.5 depth (roof * 33 / 1000) * (1.125 * depth)
                = roof * 33 / 1000).
  { rewrite <- ditch_den_standard_depth. unfold ditch_length0.
    apply Rdiv_mult_cancel. rewrite ditch_den_standard_depth. lra. }
  nra.
Qed.

Lemma ditch_button_never_warns_witness :
  Watershaper.infiltratiegracht_message 90 false 0.3
    = Ok Watershaper.volume_met.
Proof. apply (ditch_button_never_warns 90 0.3 false); lra. Defined.

Lemma rainwell_size_eq (roof : R) (has_rainwell : bool) :
  let r := if has_rainwell then roof - 30 else roof in
  Watershaper.rainwell_size (Watershaper.derive_requirements roof has_rainwell)
  = if Rlt_dec r 80 then 5000
    else if Rlt_dec r 120 then 7500
    else if Rlt_dec r 200 then 10000
    else r * 100.
Proof.
  cbv zeta. unfold Watershaper.derive_requirements.
  cbn [Watershaper.rainwell_size flt fle fsub fmul of_Z PyFloat_R].
  set (r := if has_rainwell then roof - 30 else roof).
  unfold Rltb, Rleb.
  destruct (Rlt_dec r 80); [reflexivity|].
  destruct (Rle_dec 80 r); [|lra].
  destruct (Rlt_dec r 120); [reflexivity|]. cbn [andb].
  destruct (Rle_dec 120 r); [|lra].
  destruct (Rlt_dec r 200); reflexivity.
Qed.

(** X19.  The rainwell size is at least 5000, does not decrease when the roof
    grows, and is never larger with the rainwell box ticked than without. *)
Theorem rainwell_size_monotone (roof roof' : R) (has_rainwell : bool) :
  roof <= roof' ->
  let size r h :=
    Watershaper.rainwell_size (Watershaper.derive_requirements r h) in
  5000 <= size roof has_rainwell /\
  size roof has_rainwell <= size roof' has_rainwell /\
  size roof true <= size roof false.
Proof.
  intros Hle size. unfold size. rewrite !rainwell_size_eq. cbv zeta.
  repeat split.
  - destruct has_rainwell;
      repeat match goal with |- context [Rlt_dec ?a ?b] =>
        destruct (Rlt_dec a b) end; lra.
  - destruct has_rainwell;
      repeat match goal with |- context [Rlt_dec ?a ?b] =>
        destruct (Rlt_dec a b) end; lra.
  - repeat match goal with |- context [Rlt_dec ?a ?b] =>
        destruct (Rlt_dec a b) end; lra.
Qed.

Lemma rainwell_size_monotone_witness :
  Watershaper.rainwell_size (Watershaper.derive_requirements 100 true)
  <= Watershaper.rainwell_size (Watershaper.derive_requirements 100 false).
Proof.
  destruct (rainwell_size_monotone 100 150 true) as (_ & _ & Hbox); [lra|].
  exact Hbox.
Defined.

(** ** Rounding on binary64 *)

Section Binary64Rounding.
Variable float_pow : float -> float -> result float.
Hypothesis square_075 : float_pow 0.75%float 2%float = Ok 0.5625%float.
Hypothesis square_03 :
  float_pow (Binary64.float_of_Z 3 / Binary64.float_of_Z 10)%float 2%float
  = Ok (Binary64.float_of_Z 9 / Binary64.float_of_Z 100)%float.

Let py64 : PyFloat float := Binary64.carrier float_pow.
#[local] Existing Instance py64.

(** X18.  On binary64 the returned volume can round below the minimum volume:
    for a roof of 90 at the depth 0.3 the ditch button shows the warning. *)
Theorem binary64_volume_rounds_below :
  @Watershaper.infiltratiegracht_message float py64
    (of_Z 90) false (dec 3 1)
  = Ok Watershaper.volume_below.
Proof.
  unfold Watershaper.infiltratiegracht_message,
    Watershaper.button_infiltratiegracht,
    Watershaper.calculate_infiltration_ditch, truediv, math_sqrt.
  cbv. rewrite square_075. cbv.
  cbv in square_03. rewrite square_03. cbv. reflexivity.
Qed.
End Binary64Rounding.

Lemma binary64_volume_rounds_below_witness :
  @Watershaper.infiltratiegracht_message float
    (Binary64.carrier (fun x _ => Ok (PrimFloat.mul x x)))
    (Binary64.float_of_Z 90) false
    (Binary64.float_of_Z 3 / Binary64.float_of_Z 10)%float
  = Ok Watershaper.volume_below.
Proof.
  apply (binary64_volume_rounds_below (fun x _ => Ok (PrimFloat.mul x x)));
    vm_compute; reflexivity.
Defined.
